(** * AT25SF041 SPI NOR flash driver: shallow embedding of
    [source/at25sf041.c] and its specification.

    Integer model (LP64 Linux kernel): [loff_t] and [ssize_t] are signed
    64-bit, [size_t] is unsigned 64-bit, [u8] is unsigned 8-bit.  Values are
    kept in [Z] with the C conversions written out ([u64], [s64], [u8]).

    The SPI bus is a transport oracle [respond]: given the list of messages
    already issued on the bus and the new message, it yields the return value
    of [spi_sync] and the bytes received by each receive transfer.  The bus
    state records every issued message, so "no bus transaction" is a
    statement about that trace. *)

From Stdlib Require Import ZArith List Bool Lia.
Import ListNotations.
Open Scope Z_scope.

(** ** C integer conversions *)

Definition u8 (x : Z) : Z := x mod 2 ^ 8.
Definition u64 (x : Z) : Z := x mod 2 ^ 64.
(** [unsigned int]: the type of [struct spi_transfer]'s [len] field. *)
Definition u32 (x : Z) : Z := x mod 2 ^ 32.
Definition s64 (x : Z) : Z :=
  let y := x mod 2 ^ 64 in if y <? 2 ^ 63 then y else y - 2 ^ 64.

(** ** Constants *)

Definition AT25SF041_MAN_ID : Z := 0x1F.
Definition AT25SF041_DEV_ID1 : Z := 0x84.
Definition AT25SF041_DEV_ID2 : Z := 0x01.
Definition AT25SF041_PAGE_SIZE : Z := 256.
Definition SPINOR_OP_RDSR : Z := 0x05.
Definition SPINOR_OP_RDID : Z := 0x9f.
(** [SR_WIP] is [BIT(0)] in [linux/mtd/spi-nor.h]. *)
Definition SR_WIP : Z := 1.
Definition EIO : Z := 5.

(** ** SPI transfers, messages and the bus *)

(** A [struct spi_transfer]: either a transmit buffer or a receive buffer of
    [len] bytes, with its [cs_change] flag. *)
Inductive spi_transfer : Type :=
| Tx (tx_buf : list Z) (cs_change : bool)
| Rx (len : Z) (cs_change : bool).

(** A [struct spi_message]: the transfers added with [spi_message_add_tail],
    in order. *)
Definition spi_message : Type := list spi_transfer.

(** What the controller reports for one [spi_sync]: its return value and the
    bytes clocked into each receive transfer, in order. *)
Record spi_response : Type := mk_response {
  sync_ret : Z;
  rx_data : list (list Z)
}.

(** A [struct at25sf041_page]; the buffer pointer is the suffix of the
    caller's buffer it points to. *)
Record at25sf041_page : Type := mk_page {
  spi_addr_start : Z;
  buffer_start : list Z;
  page_len : Z
}.

(** Bus state: every message issued by [spi_sync], oldest first, and a ghost
    log of the [at25sf041_write_page] invocations made by [at25sf041_write]
    with the value each returned. *)
Record bus_state : Type := mk_state {
  bus_trace : list spi_message;
  page_calls : list (at25sf041_page * Z)
}.

(** ** A small state monad *)

Definition St (A : Type) : Type := bus_state -> A * bus_state.
Definition ret {A} (a : A) : St A := fun s => (a, s).
Definition bind {A B} (m : St A) (f : A -> St B) : St B :=
  fun s => let (a, s') := m s in f a s'.

Notation "x <- m ;; k" := (bind m (fun x => k))
  (at level 61, m at next level, right associativity).

Section Driver.

Variable respond : list spi_message -> spi_message -> spi_response.

(** [spi_sync]: one atomic transaction, appended to the bus trace. *)
Definition spi_sync (m : spi_message) : St spi_response :=
  fun s => (respond (bus_trace s) m,
            mk_state (bus_trace s ++ [m]) (page_calls s)).

(** Byte [k] received by receive transfer [i]; [seed] is the value the
    buffer held before the transfer. *)
Definition rx_byte (r : spi_response) (i k : nat) (seed : Z) : Z :=
  u8 (nth k (nth i (rx_data r) []) seed).

(** *** [at25sf041_test_con] *)

Definition test_con_message : spi_message :=
  [Tx [SPINOR_OP_RDSR] false; Rx 1 true; Tx [SPINOR_OP_RDID] false; Rx 3 false].

(** Lines after [spi_sync] in [at25sf041_test_con]: the classification of
    the probe's response ([0] connected, nonzero an error). *)
Definition test_con_classify (r : spi_response) : Z :=
  let result := sync_ret r in
  let status := rx_byte r 0 0 0xAB in
  let id0 := rx_byte r 1 0 0 in
  let id1 := rx_byte r 1 1 0 in
  let id2 := rx_byte r 1 2 0 in
  if negb (result =? 0) then result
  else if status =? 0xFF then - EIO
  else if Z.land status SR_WIP =? 0 then
    (if negb (AT25SF041_MAN_ID =? id0) || negb (AT25SF041_DEV_ID1 =? id1)
        || negb (AT25SF041_DEV_ID2 =? id2)
     then - EIO else 0)
  else 0.

Definition at25sf041_test_con : St Z :=
  r <- spi_sync test_con_message ;;
  ret (test_con_classify r).

(** *** [at25sf041_read_reg] and [at25sf041_write_reg] *)

Definition at25sf041_read_reg (opcode : Z) (len : Z) : St Z :=
  result <- at25sf041_test_con ;;
  if negb (result =? 0) then ret result
  else
    r <- spi_sync (Tx [opcode] false :: (if 0 <? len then [Rx len false] else [])) ;;
    if negb (sync_ret r =? 0) then ret (sync_ret r) else ret 0.

Definition at25sf041_write_reg (opcode : Z) (buf : list Z) (len : Z) : St Z :=
  result <- at25sf041_test_con ;;
  if negb (result =? 0) then ret result
  else
    r <- spi_sync (Tx [opcode] false ::
                   (if 0 <? len then [Tx (firstn (Z.to_nat len) buf) false] else [])) ;;
    if negb (sync_ret r =? 0) then ret (sync_ret r) else ret 0.

(** *** [at25sf041_read] *)

(** [min(max_addr, from + len) - from] as the C code computes it:
    [from + len] is [loff_t + size_t], evaluated as unsigned 64-bit; the
    kernel [min] compares in that type; [end] is a [loff_t]; [end - from]
    is stored into a [size_t]. *)
Definition clamped_len (max_addr from len : Z) : Z :=
  let sum := u64 (u64 from + len) in
  let end_ := s64 (if u64 max_addr <? sum then u64 max_addr else sum) in
  u64 (end_ - from).

Definition address_bytes (a : Z) : list Z :=
  [Z.land (Z.shiftr a 16) 0xFF; Z.land (Z.shiftr a 8) 0xFF; Z.land a 0xFF].

(** [.len = read_len] stores the [size_t] into the [unsigned] field
    [spi_transfer.len]. *)
Definition read_message (from read_len : Z) : spi_message :=
  [Tx ([0x0b] ++ address_bytes from ++ [0]) false; Rx (u32 read_len) false].

(** [mtd_size] is [nor->mtd.size]. *)
Definition at25sf041_read (mtd_size from len : Z) : St Z :=
  let read_len := clamped_len mtd_size from len in
  result <- at25sf041_test_con ;;
  if negb (result =? 0) then ret result
  else
    r <- spi_sync (read_message from read_len) ;;
    if negb (sync_ret r =? 0) then ret (sync_ret r) else ret (s64 read_len).

(** *** [at25sf041_write_page] *)

(** [.len = page->len] stores the [size_t] into the [unsigned] field
    [spi_transfer.len]. *)
Definition page_message (page : at25sf041_page) : spi_message :=
  [Tx ([0x02] ++ address_bytes (spi_addr_start page)) false;
   Tx (firstn (Z.to_nat (u32 (page_len page))) (buffer_start page)) false].

Definition at25sf041_write_page (page : at25sf041_page) : St Z :=
  result <- at25sf041_test_con ;;
  if negb (result =? 0) then ret result
  else
    r <- spi_sync (page_message page) ;;
    if negb (sync_ret r =? 0) then ret (sync_ret r) else ret (s64 (page_len page)).

(** Ghost instrumentation: the call of [at25sf041_write_page] made from the
    loop of [at25sf041_write], logged with the value it returned. *)
Definition call_write_page (page : at25sf041_page) : St Z :=
  result <- at25sf041_write_page page ;;
  fun s => (result, mk_state (bus_trace s) (page_calls s ++ [(page, result)])).

(** *** [at25sf041_write] *)

(** How the [for (; 0 < data_left;)] loop ends: it falls through, it
    executes a [return], or (only in this fuel-bounded model) it ran out of
    fuel. *)
Inductive loop_outcome : Type :=
| LoopExit
| LoopReturn (r : Z)
| LoopStuck.

Fixpoint write_loop (fuel : nat) (to : Z) (write_buf : list Z) (data_left : Z)
  : St loop_outcome :=
  if 0 <? data_left then
    match fuel with
    | O => ret LoopStuck
    | S fuel' =>
      let page_off := Z.land to 0xFF in
      let page_rem := u64 (AT25SF041_PAGE_SIZE - page_off) in
      let page := mk_page to write_buf (Z.min page_rem data_left) in
      result <- call_write_page page ;;
      if result <? 0 then ret (LoopReturn result)
      else if negb (page_len page =? u64 result) then ret (LoopReturn (- EIO))
      else write_loop fuel' (s64 (u64 to + page_len page))
                      (skipn (Z.to_nat (page_len page)) write_buf)
                      (u64 (data_left - page_len page))
    end
  else ret LoopExit.

(** [None] only if the loop ran out of fuel; the fuel is the initial
    [data_left], one unit per byte. *)
Definition at25sf041_write (mtd_size to len : Z) (write_buf : list Z)
  : St (option Z) :=
  let write_len := clamped_len mtd_size to len in
  let data_left := write_len in
  o <- write_loop (Z.to_nat data_left) to write_buf data_left ;;
  match o with
  | LoopExit => ret (Some (s64 write_len))
  | LoopReturn r => ret (Some r)
  | LoopStuck => ret None
  end.

End Driver.

(** * Properties *)

Section Probe.

Variable respond : list spi_message -> spi_message -> spi_response.

Lemma test_con_run (s : bus_state) :
  at25sf041_test_con respond s =
  (test_con_classify (respond (bus_trace s) test_con_message),
   mk_state (bus_trace s ++ [test_con_message]) (page_calls s)).
Proof. reflexivity. Qed.

(** C4: when the probe's transaction succeeds and the status byte reads
    0xFF, the probe reports an error ([-EIO]), whatever the identity bytes. *)
Theorem test_con_status_ff_disconnected (s : bus_state) :
  sync_ret (respond (bus_trace s) test_con_message) = 0 ->
  rx_byte (respond (bus_trace s) test_con_message) 0 0 0xAB = 0xFF ->
  fst (at25sf041_test_con respond s) = - EIO.
Proof.
  intros Hret Hst. rewrite test_con_run; simpl.
  unfold test_con_classify. rewrite Hret, Hst. reflexivity.
Qed.

(** C5: when the probe's transaction succeeds and the status byte is not
    0xFF but has the write-in-progress bit set, the probe reports connected
    ([0]), whatever the identity bytes. *)
Theorem test_con_wip_connected (s : bus_state) :
  sync_ret (respond (bus_trace s) test_con_message) = 0 ->
  rx_byte (respond (bus_trace s) test_con_message) 0 0 0xAB <> 0xFF ->
  Z.land (rx_byte (respond (bus_trace s) test_con_message) 0 0 0xAB) SR_WIP <> 0 ->
  fst (at25sf041_test_con respond s) = 0.
Proof.
  intros Hret Hff Hwip. rewrite test_con_run; simpl.
  unfold test_con_classify. rewrite Hret. simpl.
  apply Z.eqb_neq in Hff, Hwip. rewrite Hff, Hwip. reflexivity.
Qed.

(** C6: when the probe's transaction succeeds and the status byte is 0x00,
    the probe reports connected ([0]) exactly when the three identity bytes
    are 0x1F, 0x84, 0x01, and [-EIO] otherwise. *)
Theorem test_con_idle_checks_id (s : bus_state) :
  let r := respond (bus_trace s) test_con_message in
  sync_ret r = 0 ->
  rx_byte r 0 0 0xAB = 0 ->
  fst (at25sf041_test_con respond s) =
  if (rx_byte r 1 0 0 =? 0x1F) && (rx_byte r 1 1 0 =? 0x84) && (rx_byte r 1 2 0 =? 0x01)
  then 0 else - EIO.
Proof.
  intros r Hret Hst. rewrite test_con_run; simpl.
  unfold test_con_classify. fold r. rewrite Hret, Hst.
  rewrite (Z.eqb_sym AT25SF041_MAN_ID), (Z.eqb_sym AT25SF041_DEV_ID1),
    (Z.eqb_sym AT25SF041_DEV_ID2).
  unfold AT25SF041_MAN_ID, AT25SF041_DEV_ID1, AT25SF041_DEV_ID2.
  destruct (rx_byte r 1 0 0 =? 31), (rx_byte r 1 1 0 =? 132), (rx_byte r 1 2 0 =? 1);
    reflexivity.
Qed.

(** C8: [at25sf041_read_reg] and [at25sf041_write_reg] issue the probe as
    their first transaction; when the probe fails they return its error and
    the probe is the only transaction on the bus. *)
Theorem reg_access_gated_by_probe (s : bus_state) (opcode len : Z) (buf : list Z) :
  (exists rest,
      bus_trace (snd (at25sf041_read_reg respond opcode len s)) =
        bus_trace s ++ test_con_message :: rest) /\
  (exists rest,
      bus_trace (snd (at25sf041_write_reg respond opcode buf len s)) =
        bus_trace s ++ test_con_message :: rest) /\
  (test_con_classify (respond (bus_trace s) test_con_message) <> 0 ->
   at25sf041_read_reg respond opcode len s = at25sf041_test_con respond s /\
   at25sf041_write_reg respond opcode buf len s = at25sf041_test_con respond s /\
   bus_trace (snd (at25sf041_test_con respond s)) = bus_trace s ++ [test_con_message]).
Proof.
  unfold at25sf041_read_reg, at25sf041_write_reg.
  cbv [bind]. rewrite test_con_run. cbv iota beta.
  remember (test_con_classify (respond (bus_trace s) test_con_message)) as t.
  destruct (t =? 0) eqn:E; simpl.
  - repeat split;
      [ exists [Tx [opcode] false :: (if 0 <? len then [Rx len false] else [])]
      | exists [Tx [opcode] false ::
                (if 0 <? len then [Tx (firstn (Z.to_nat len) buf) false] else [])]
      | ..];
      try (destruct (negb _); simpl; rewrite <- app_assoc; reflexivity).
    all: apply Z.eqb_eq in E; contradiction.
  - repeat split; try (exists []; reflexivity).
Qed.

End Probe.

Section WriteLoop.

Variable respond : list spi_message -> spi_message -> spi_response.

(** The chunk [at25sf041_write] builds for the cursor [to] with [data_left]
    bytes remaining (lines 265-271). *)
Definition next_page (to : Z) (write_buf : list Z) (data_left : Z) : at25sf041_page :=
  mk_page to write_buf (Z.min (u64 (AT25SF041_PAGE_SIZE - Z.land to 0xFF)) data_left).

Lemma write_loop_step (f : nat) (to : Z) (buf : list Z) (dl : Z) (s : bus_state) :
  0 < dl ->
  write_loop respond (S f) to buf dl s =
  let page := next_page to buf dl in
  let (result, s1) := call_write_page respond page s in
  if result <? 0 then (LoopReturn result, s1)
  else if negb (page_len page =? u64 result) then (LoopReturn (- EIO), s1)
  else write_loop respond f (s64 (u64 to + page_len page))
         (skipn (Z.to_nat (page_len page)) buf) (u64 (dl - page_len page)) s1.
Proof.
  intros Hdl. cbn [write_loop]. apply Z.ltb_lt in Hdl. rewrite Hdl. cbv [bind ret].
  unfold next_page. destruct (call_write_page respond _ s) as [r s1].
  destruct (r <? 0); [reflexivity |]. destruct (negb _); reflexivity.
Qed.

Lemma write_loop_exit (f : nat) (to : Z) (buf : list Z) (dl : Z) (s : bus_state) :
  dl <= 0 -> write_loop respond f to buf dl s = (LoopExit, s).
Proof.
  intros Hdl. destruct f; cbn [write_loop]; replace (0 <? dl) with false by lia;
    reflexivity.
Qed.

Lemma write_page_keeps_calls (page : at25sf041_page) (s : bus_state) :
  page_calls (snd (at25sf041_write_page respond page s)) = page_calls s.
Proof.
  unfold at25sf041_write_page. cbv [bind]. rewrite test_con_run. cbv iota beta.
  destruct (negb _); [reflexivity |]. cbv [spi_sync].
  destruct (negb _); reflexivity.
Qed.

Lemma call_write_page_logs (page : at25sf041_page) (s : bus_state) :
  page_calls (snd (call_write_page respond page s)) =
  page_calls s ++ [(page, fst (call_write_page respond page s))].
Proof.
  unfold call_write_page. cbv [bind].
  pose proof (write_page_keeps_calls page s) as H.
  destruct (at25sf041_write_page respond page s) as [r s1]. simpl in *.
  rewrite H. reflexivity.
Qed.

Lemma land_255_mod (x : Z) : Z.land x 0xFF = x mod 256.
Proof. change 0xFF with (Z.ones 8). rewrite Z.land_ones by lia. reflexivity. Qed.

(** The chunk built for a positive [data_left] is non-empty, no longer than
    [data_left], and ends inside the page it starts in. *)
Lemma next_page_bounds (to : Z) (buf : list Z) (dl : Z) :
  0 < dl ->
  1 <= page_len (next_page to buf dl) <= dl /\
  to mod 256 + page_len (next_page to buf dl) <= 256.
Proof.
  intros Hdl. unfold next_page, AT25SF041_PAGE_SIZE, u64; simpl.
  rewrite land_255_mod.
  pose proof (Z.mod_pos_bound to 256 ltac:(lia)).
  rewrite (Z.mod_small (256 - to mod 256)) by lia. lia.
Qed.

Lemma same_page (start len : Z) :
  1 <= len -> start mod 256 + len <= 256 ->
  start / 256 = (start + len - 1) / 256.
Proof.
  intros H1 H2.
  pose proof (Z.div_mod start 256 ltac:(lia)).
  pose proof (Z.mod_pos_bound start 256 ltac:(lia)).
  apply Z.div_unique with (start mod 256 + len - 1); [left |]; lia.
Qed.

(** A logged PageWriter call whose address range stays inside one
    256-byte page. *)
Definition within_page (c : at25sf041_page * Z) : Prop :=
  1 <= page_len (fst c) /\
  spi_addr_start (fst c) / 256 = (spi_addr_start (fst c) + page_len (fst c) - 1) / 256.

Lemma write_loop_pages (f : nat) (to : Z) (buf : list Z) (dl : Z) (s : bus_state) :
  exists new,
    page_calls (snd (write_loop respond f to buf dl s)) = page_calls s ++ new /\
    Forall within_page new.
Proof.
  revert to buf dl s. induction f as [| f IH]; intros to buf dl s.
  - cbn [write_loop]. exists []. rewrite app_nil_r.
    destruct (0 <? dl); split; auto.
  - destruct (Z.ltb_spec 0 dl) as [Hdl | Hdl].
    + rewrite write_loop_step by exact Hdl. cbv zeta.
      pose proof (call_write_page_logs (next_page to buf dl) s) as Hlog.
      pose proof (next_page_bounds to buf dl Hdl) as [Hb1 Hb2].
      destruct (call_write_page respond (next_page to buf dl) s) as [r s1].
      simpl in Hlog.
      assert (Hw : within_page (next_page to buf dl, r)).
      { unfold within_page; cbn [fst].
        change (spi_addr_start (next_page to buf dl)) with to.
        split; [lia | apply same_page; lia]. }
      destruct (r <? 0); [exists [(next_page to buf dl, r)]; auto |].
      destruct (negb _); [exists [(next_page to buf dl, r)]; auto |].
      destruct (IH (s64 (u64 to + page_len (next_page to buf dl)))
                  (skipn (Z.to_nat (page_len (next_page to buf dl))) buf)
                  (u64 (dl - page_len (next_page to buf dl))) s1) as [new [Hn Hf]].
      exists ((next_page to buf dl, r) :: new). split; auto.
      rewrite Hn, Hlog, <- app_assoc. reflexivity.
    + rewrite write_loop_exit by exact Hdl. exists []. rewrite app_nil_r. auto.
Qed.

Lemma write_loop_progress (f : nat) (to : Z) (buf : list Z) (dl : Z) (s : bus_state) :
  (Z.to_nat dl <= f)%nat -> fst (write_loop respond f to buf dl s) <> LoopStuck.
Proof.
  revert to buf dl s. induction f as [| f IH]; intros to buf dl s Hf.
  - rewrite write_loop_exit by lia. discriminate.
  - destruct (Z.ltb_spec 0 dl) as [Hdl | Hdl].
    + rewrite write_loop_step by exact Hdl. cbv zeta.
      pose proof (next_page_bounds to buf dl Hdl) as [Hb1 Hb2].
      destruct (call_write_page respond (next_page to buf dl) s) as [r s1].
      destruct (r <? 0); [discriminate |].
      destruct (negb _); [discriminate |].
      apply IH. unfold u64.
      pose proof (Z.mod_le (dl - page_len (next_page to buf dl)) (2 ^ 64)
                    ltac:(lia) ltac:(lia)).
      pose proof (Z.mod_pos_bound (dl - page_len (next_page to buf dl)) (2 ^ 64)
                    ltac:(lia)).
      lia.
    + rewrite write_loop_exit by exact Hdl. discriminate.
Qed.

(** When every logged call returned its chunk length and the fuel covers
    [data_left], the loop falls through and the chunk lengths add up to
    [data_left]. *)
Lemma write_loop_all_ok (f : nat) (to : Z) (buf : list Z) (dl : Z) (s : bus_state) :
  0 <= dl < 2 ^ 64 -> (Z.to_nat dl <= f)%nat ->
  exists new,
    page_calls (snd (write_loop respond f to buf dl s)) = page_calls s ++ new /\
    (Forall (fun c => snd c = page_len (fst c)) new ->
     fst (write_loop respond f to buf dl s) = LoopExit /\
     fold_right Z.add 0 (map (fun c => page_len (fst c)) new) = dl).
Proof.
  revert to buf dl s. induction f as [| f IH]; intros to buf dl s Hr Hf.
  - rewrite write_loop_exit by lia. exists []. rewrite app_nil_r. simpl. split; auto.
    intros _. split; [reflexivity | lia].
  - destruct (Z.ltb_spec 0 dl) as [Hdl | Hdl].
    + rewrite write_loop_step by exact Hdl. cbv zeta.
      pose proof (call_write_page_logs (next_page to buf dl) s) as Hlog.
      pose proof (next_page_bounds to buf dl Hdl) as [Hb1 Hb2].
      destruct (call_write_page respond (next_page to buf dl) s) as [r s1].
      simpl in Hlog.
      destruct (Z.ltb_spec r 0) as [Hneg | Hnneg].
      { exists [(next_page to buf dl, r)]. split; [exact Hlog |].
        intros Hall. inversion Hall as [| ? ? Hc]; subst. cbn [fst snd] in Hc. lia. }
      destruct (page_len (next_page to buf dl) =? u64 r) eqn:Eq; cbn [negb].
      * assert (Hu : u64 (dl - page_len (next_page to buf dl)) =
                     dl - page_len (next_page to buf dl)).
        { unfold u64. apply Z.mod_small. lia. }
        rewrite Hu.
        destruct (IH (s64 (u64 to + page_len (next_page to buf dl)))
                    (skipn (Z.to_nat (page_len (next_page to buf dl))) buf)
                    (dl - page_len (next_page to buf dl)) s1 ltac:(lia) ltac:(lia))
          as [new [Hn Hok]].
        exists ((next_page to buf dl, r) :: new). split.
        -- rewrite Hn, Hlog, <- app_assoc. reflexivity.
        -- intros Hall. inversion Hall as [| ? ? Hc Hrest]; subst.
           destruct (Hok Hrest) as [Ho Hs]. split; [exact Ho |].
           cbn [map fold_right fst]. lia.
      * exists [(next_page to buf dl, r)]. split; [exact Hlog |].
        intros Hall. inversion Hall as [| ? ? Hc]; subst. cbn [fst snd] in Hc.
        rewrite <- Hc in Eq. unfold u64 in Eq.
        rewrite Z.mod_small in Eq by lia. rewrite Z.eqb_refl in Eq. discriminate.
    + rewrite write_loop_exit by exact Hdl. exists []. rewrite app_nil_r. simpl.
      split; auto. intros _. split; [reflexivity | lia].
Qed.

End WriteLoop.

Section WriteErrors.

Variable respond : list spi_message -> spi_message -> spi_response.

(** [spi_sync] returns an [int]. *)
Hypothesis respond_int : forall tr m, -2 ^ 31 <= sync_ret (respond tr m) < 2 ^ 31.

Lemma test_con_classify_int (r : spi_response) :
  -2 ^ 31 <= sync_ret r < 2 ^ 31 -> -2 ^ 31 <= test_con_classify r < 2 ^ 31.
Proof.
  intros H. unfold test_con_classify, EIO.
  destruct (negb _); [exact H |].
  repeat match goal with |- context [if ?b then _ else _] => destruct b end; lia.
Qed.

Lemma s64_range (x : Z) : -2 ^ 63 <= s64 x < 2 ^ 63.
Proof.
  unfold s64. pose proof (Z.mod_pos_bound x (2 ^ 64) ltac:(lia)).
  destruct (Z.ltb_spec (x mod 2 ^ 64) (2 ^ 63)); lia.
Qed.

Lemma call_write_page_range (page : at25sf041_page) (s : bus_state) :
  -2 ^ 63 <= fst (call_write_page respond page s) < 2 ^ 63.
Proof.
  unfold call_write_page, at25sf041_write_page. cbv [bind]. rewrite test_con_run.
  cbv iota beta.
  pose proof (test_con_classify_int (respond (bus_trace s) test_con_message)
                (respond_int _ _)) as Ht.
  destruct (negb _); [simpl; lia |]. cbv [spi_sync].
  pose proof (respond_int (bus_trace s ++ [test_con_message]) (page_message page)).
  destruct (negb _); simpl; [lia | apply s64_range].
Qed.

(** Once a logged call returns anything but its chunk length, it is the last
    call, and the loop returns that value if negative, [-EIO] otherwise. *)
Lemma write_loop_stops (f : nat) (to : Z) (buf : list Z) (dl : Z) (s : bus_state) :
  exists new,
    page_calls (snd (write_loop respond f to buf dl s)) = page_calls s ++ new /\
    (forall i page r, nth_error new i = Some (page, r) -> r <> page_len page ->
     S i = length new /\
     fst (write_loop respond f to buf dl s) = LoopReturn (if r <? 0 then r else - EIO)).
Proof.
  revert to buf dl s. induction f as [| f IH]; intros to buf dl s.
  - cbn [write_loop]. exists []. rewrite app_nil_r.
    split; [destruct (0 <? dl); reflexivity |].
    intros [|] ? ? H; discriminate.
  - destruct (Z.ltb_spec 0 dl) as [Hdl | Hdl].
    + rewrite write_loop_step by exact Hdl. cbv zeta.
      pose proof (call_write_page_logs respond (next_page to buf dl) s) as Hlog.
      pose proof (call_write_page_range (next_page to buf dl) s) as Hrange.
      destruct (call_write_page respond (next_page to buf dl) s) as [r s1].
      cbn [fst snd] in Hlog, Hrange.
      destruct (Z.ltb_spec r 0) as [Hneg | Hnneg].
      { exists [(next_page to buf dl, r)]. split; [exact Hlog |].
        intros [| [|]] pg r' Hn Hne; cbn in Hn; try discriminate.
        injection Hn as <- <-. split; [reflexivity |].
        cbn [fst]. replace (r <? 0) with true by lia. reflexivity. }
      assert (Hu : u64 r = r) by (unfold u64; apply Z.mod_small; lia).
      rewrite Hu.
      destruct (Z.eqb_spec (page_len (next_page to buf dl)) r) as [Heq | Hne]; cbn [negb].
      * destruct (IH (s64 (u64 to + page_len (next_page to buf dl)))
                  (skipn (Z.to_nat (page_len (next_page to buf dl))) buf)
                  (u64 (dl - page_len (next_page to buf dl))) s1) as [new [Hn Hst]].
        exists ((next_page to buf dl, r) :: new). split.
        -- rewrite Hn, Hlog, <- app_assoc. reflexivity.
        -- intros [| i] pg r' Hi Hne'; cbn in Hi.
           ++ injection Hi as <- <-. congruence.
           ++ destruct (Hst i pg r' Hi Hne') as [Hl Ho]. cbn [length]. split; [lia | exact Ho].
      * exists [(next_page to buf dl, r)]. split; [exact Hlog |].
        intros [| [|]] pg r' Hn Hne'; cbn in Hn; try discriminate.
        injection Hn as <- <-. split; [reflexivity |].
        cbn [fst]. replace (r <? 0) with false by lia. reflexivity.
    + rewrite write_loop_exit by exact Hdl. exists []. rewrite app_nil_r.
      split; [reflexivity |]. intros [|] ? ? H; discriminate.
Qed.

End WriteErrors.

Lemma write_run (respond : list spi_message -> spi_message -> spi_response)
  (mtd_size to len : Z) (buf : list Z) (s : bus_state) :
  at25sf041_write respond mtd_size to len buf s =
  let dl := clamped_len mtd_size to len in
  let (o, s1) := write_loop respond (Z.to_nat dl) to buf dl s in
  (match o with
   | LoopExit => Some (s64 dl)
   | LoopReturn r => Some r
   | LoopStuck => None
   end, s1).
Proof.
  unfold at25sf041_write. cbv [bind].
  destruct (write_loop respond _ to buf _ s) as [[| r |] s1]; reflexivity.
Qed.

Lemma clamped_len_range (mtd_size from len : Z) :
  0 <= clamped_len mtd_size from len < 2 ^ 64.
Proof. unfold clamped_len, u64. apply Z.mod_pos_bound. lia. Qed.

(** C2: every PageWriter call issued by [at25sf041_write] has a non-empty
    address range [start, start + len) that stays inside one 256-byte page:
    [start] and [start + len - 1] lie in the same page. *)
Theorem write_chunks_within_page
  (respond : list spi_message -> spi_message -> spi_response)
  (mtd_size to len : Z) (buf : list Z) (s : bus_state) :
  exists new,
    page_calls (snd (at25sf041_write respond mtd_size to len buf s)) = page_calls s ++ new /\
    Forall within_page new.
Proof.
  rewrite write_run. cbv zeta.
  destruct (write_loop_pages respond (Z.to_nat (clamped_len mtd_size to len)) to buf
              (clamped_len mtd_size to len) s) as [new [Hn Hf]].
  destruct (write_loop respond _ to buf _ s) as [o s1].
  exists new. split; [exact Hn | exact Hf].
Qed.

(** C3: if a PageWriter call made by [at25sf041_write] returns anything but
    its chunk length, no PageWriter call follows it, and [at25sf041_write]
    returns that value when it is negative and [-EIO] when it is not. *)
Theorem write_aborts_on_bad_chunk
  (respond : list spi_message -> spi_message -> spi_response)
  (respond_int : forall tr m, -2 ^ 31 <= sync_ret (respond tr m) < 2 ^ 31)
  (mtd_size to len : Z) (buf : list Z) (s : bus_state) :
  exists new,
    page_calls (snd (at25sf041_write respond mtd_size to len buf s)) = page_calls s ++ new /\
    (forall i page r, nth_error new i = Some (page, r) -> r <> page_len page ->
     S i = length new /\
     fst (at25sf041_write respond mtd_size to len buf s) =
       Some (if r <? 0 then r else - EIO)).
Proof.
  rewrite write_run. cbv zeta.
  destruct (write_loop_stops respond respond_int (Z.to_nat (clamped_len mtd_size to len))
              to buf (clamped_len mtd_size to len) s) as [new [Hn Hst]].
  destruct (write_loop respond _ to buf _ s) as [o s1].
  exists new. split; [exact Hn |].
  intros i page r Hi Hne. destruct (Hst i page r Hi Hne) as [Hl Ho].
  split; [exact Hl |]. cbn [fst] in *. rewrite Ho. reflexivity.
Qed.

(** C10: the chunk loop of [at25sf041_write] always terminates (the model
    never runs out of its fuel of one unit per byte), every chunk is at
    least one byte long, and when every PageWriter call returns its chunk
    length the chunk lengths add up to the clamped length, which is what
    [at25sf041_write] returns. *)
Theorem write_terminates
  (respond : list spi_message -> spi_message -> spi_response)
  (mtd_size to len : Z) (buf : list Z) (s : bus_state) :
  fst (at25sf041_write respond mtd_size to len buf s) <> None /\
  exists new,
    page_calls (snd (at25sf041_write respond mtd_size to len buf s)) = page_calls s ++ new /\
    Forall (fun c => 1 <= page_len (fst c)) new /\
    (Forall (fun c => snd c = page_len (fst c)) new ->
     fst (at25sf041_write respond mtd_size to len buf s) =
       Some (s64 (clamped_len mtd_size to len)) /\
     fold_right Z.add 0 (map (fun c => page_len (fst c)) new) = clamped_len mtd_size to len).
Proof.
  rewrite write_run. cbv zeta.
  set (dl := clamped_len mtd_size to len).
  pose proof (clamped_len_range mtd_size to len) as Hr. fold dl in Hr.
  pose proof (write_loop_progress respond (Z.to_nat dl) to buf dl s (le_n _)) as Hp.
  destruct (write_loop_pages respond (Z.to_nat dl) to buf dl s) as [new [Hn Hf]].
  destruct (write_loop_all_ok respond (Z.to_nat dl) to buf dl s Hr (le_n _))
    as [new' [Hn' Hok]].
  destruct (write_loop respond (Z.to_nat dl) to buf dl s) as [o s1].
  cbn [fst snd] in *. rewrite Hn in Hn'. apply app_inv_head in Hn'. subst new'.
  split; [destruct o; congruence |].
  exists new. split; [exact Hn |]. split.
  - eapply Forall_impl; [| exact Hf]. intros c [H1 _]. exact H1.
  - intros Hall. destruct (Hok Hall) as [Ho Hs]. subst o. split; [reflexivity | exact Hs].
Qed.

(** In a goal about the state after [let (o, s') := write_loop ... in ...],
    expose the PageWriter calls of that loop after a logged call. *)
Ltac let_loop_calls Hlog prefix :=
  match goal with
  | |- context [write_loop ?resp ?f ?t ?b ?d ?st] =>
      destruct (write_loop_pages resp f t b d st) as [new' [Hn _]];
      destruct (write_loop resp f t b d st) as [o s3];
      cbn [snd] in Hn |- *; rewrite Hlog in Hn;
      exists (prefix ++ new'); split; [rewrite Hn, <- app_assoc; reflexivity | cbn [app]]
  end.

Lemma clamped_len_253_10 (mtd_size : Z) :
  263 <= mtd_size < 2 ^ 63 -> clamped_len mtd_size 253 10 = 10.
Proof.
  intros H. unfold clamped_len.
  assert (Hu : u64 mtd_size = mtd_size) by (unfold u64; apply Z.mod_small; lia).
  rewrite Hu. change (u64 (u64 253 + 10)) with 263.
  destruct (Z.ltb_spec mtd_size 263); [lia |]. reflexivity.
Qed.

(** C9: with 256-byte pages and a capacity of at least 263 bytes, a write of
    10 bytes at address 253 during which every PageWriter call returns its
    chunk length makes exactly two PageWriter calls, 3 bytes at 253 then 7
    bytes at 256, and returns 10. *)
Theorem write_253_10_chunks
  (respond : list spi_message -> spi_message -> spi_response)
  (mtd_size : Z) (buf : list Z) (s : bus_state) :
  263 <= mtd_size < 2 ^ 63 ->
  exists new,
    page_calls (snd (at25sf041_write respond mtd_size 253 10 buf s)) = page_calls s ++ new /\
    (Forall (fun c => snd c = page_len (fst c)) new ->
     map (fun c => (spi_addr_start (fst c), page_len (fst c))) new = [(253, 3); (256, 7)] /\
     fst (at25sf041_write respond mtd_size 253 10 buf s) = Some 10).
Proof.
  intros Hm. rewrite write_run. cbv zeta. rewrite (clamped_len_253_10 _ Hm).
  change (Z.to_nat 10) with (S 9).
  rewrite write_loop_step by lia. cbv zeta.
  pose proof (call_write_page_logs respond (next_page 253 buf 10) s) as Hlog1.
  change (page_len (next_page 253 buf 10)) with 3.
  destruct (call_write_page respond (next_page 253 buf 10) s) as [r1 s1].
  cbn [fst snd] in Hlog1.
  destruct (Z.eqb_spec r1 3) as [-> | Hr1].
  2:{ destruct (r1 <? 0); [| destruct (negb _)];
      [ exists [(next_page 253 buf 10, r1)]; split; [exact Hlog1 |]
      | exists [(next_page 253 buf 10, r1)]; split; [exact Hlog1 |]
      | let_loop_calls Hlog1 [(next_page 253 buf 10, r1)] ];
      intros Hall; inversion Hall as [| ? ? Hc]; cbn [fst snd] in Hc; contradiction. }
  change (3 <? 0) with false. change (negb (3 =? u64 3)) with false. cbv iota.
  change (s64 (u64 253 + 3)) with 256. change (u64 (10 - 3)) with 7.
  change (9%nat) with (S 8).
  rewrite write_loop_step by lia. cbv zeta.
  set (buf2 := skipn (Z.to_nat 3) buf).
  pose proof (call_write_page_logs respond (next_page 256 buf2 7) s1) as Hlog2.
  change (page_len (next_page 256 buf2 7)) with 7.
  destruct (call_write_page respond (next_page 256 buf2 7) s1) as [r2 s2].
  cbn [fst snd] in Hlog2.
  destruct (Z.eqb_spec r2 7) as [-> | Hr2].
  2:{ assert (Hlog : page_calls s2 =
                    page_calls s ++ [(next_page 253 buf 10, 3); (next_page 256 buf2 7, r2)])
        by (rewrite Hlog2, Hlog1, <- app_assoc; reflexivity).
      destruct (r2 <? 0); [| destruct (negb _)];
      [ exists [(next_page 253 buf 10, 3); (next_page 256 buf2 7, r2)]; split; [exact Hlog |]
      | exists [(next_page 253 buf 10, 3); (next_page 256 buf2 7, r2)]; split; [exact Hlog |]
      | let_loop_calls Hlog [(next_page 253 buf 10, 3); (next_page 256 buf2 7, r2)] ];
      intros Hall; inversion Hall as [| ? ? _ Hrest]; inversion Hrest as [| ? ? Hc];
      cbn [fst snd] in Hc; contradiction. }
  change (7 <? 0) with false. change (negb (7 =? u64 7)) with false. cbv iota.
  rewrite write_loop_exit by (vm_compute; discriminate). cbn [snd fst].
  exists [(next_page 253 buf 10, 3); (next_page 256 buf2 7, 7)]. split.
  - rewrite Hlog2, Hlog1, <- app_assoc. reflexivity.
  - intros _. split; reflexivity.
Qed.

Definition healthy_bus (_ : list spi_message) (_ : spi_message) : spi_response :=
  mk_response 0 [[0x00]; [0x1F; 0x84; 0x01]].

Lemma write_253_10_chunks_witness :
  (263 <= 524288 < 2 ^ 63) /\
  exists new,
    page_calls (snd (at25sf041_write healthy_bus 524288 253 10 (repeat 0 10) (mk_state [] [])))
      = [] ++ new /\
    (Forall (fun c => snd c = page_len (fst c)) new ->
     map (fun c => (spi_addr_start (fst c), page_len (fst c))) new = [(253, 3); (256, 7)] /\
     fst (at25sf041_write healthy_bus 524288 253 10 (repeat 0 10) (mk_state [] [])) = Some 10).
Proof.
  split; [lia |].
  apply (write_253_10_chunks healthy_bus 524288 (repeat 0 10) (mk_state [] [])). lia.
Defined.

(** ** Reads *)

Lemma read_run (respond : list spi_message -> spi_message -> spi_response)
  (mtd_size from len : Z) (s : bus_state) :
  at25sf041_read respond mtd_size from len s =
  let t := test_con_classify (respond (bus_trace s) test_con_message) in
  let tr1 := bus_trace s ++ [test_con_message] in
  let m := read_message from (clamped_len mtd_size from len) in
  if negb (t =? 0) then (t, mk_state tr1 (page_calls s))
  else
    ((if negb (sync_ret (respond tr1 m) =? 0) then sync_ret (respond tr1 m)
      else s64 (clamped_len mtd_size from len)),
     mk_state (tr1 ++ [m]) (page_calls s)).
Proof.
  unfold at25sf041_read. cbv [bind]. rewrite test_con_run. cbv iota beta zeta.
  destruct (negb _); [reflexivity |]. cbv [spi_sync].
  destruct (negb _); reflexivity.
Qed.

Lemma s64_u64_small (x : Z) : -2 ^ 63 <= x < 2 ^ 63 -> s64 (u64 x) = x.
Proof.
  intros H. unfold s64, u64. rewrite Z.mod_mod by lia.
  destruct (Z.leb_spec 0 x).
  - rewrite Z.mod_small by lia. replace (x <? 2 ^ 63) with true by lia. reflexivity.
  - replace (x mod 2 ^ 64) with (x + 2 ^ 64)
      by (apply Z.mod_unique with (-1); [left |]; lia).
    replace (x + 2 ^ 64 <? 2 ^ 63) with false by lia. lia.
Qed.

(** Without wrap-around in [from + len], the value [at25sf041_read] returns
    on success is [min(mtd_size, from + len) - from]. *)
Lemma read_len_value (mtd_size from len : Z) :
  0 <= mtd_size < 2 ^ 63 -> 0 <= from < 2 ^ 63 -> 0 <= len -> from + len < 2 ^ 64 ->
  s64 (clamped_len mtd_size from len) = Z.min mtd_size (from + len) - from.
Proof.
  intros Hm Hf Hl Hs. unfold clamped_len.
  assert (Hu : forall y, 0 <= y < 2 ^ 64 -> u64 y = y)
    by (intros y Hy; unfold u64; apply Z.mod_small; lia).
  rewrite (Hu from), (Hu (from + len)), (Hu mtd_size) by lia.
  assert (Hs64 : forall y, 0 <= y < 2 ^ 63 -> s64 y = y).
  { intros y Hy. unfold s64. rewrite Z.mod_small by lia.
    replace (y <? 2 ^ 63) with true by lia. reflexivity. }
  destruct (Z.ltb_spec mtd_size (from + len)).
  - rewrite (Hs64 mtd_size) by lia. rewrite s64_u64_small by lia. lia.
  - rewrite (Hs64 (from + len)) by lia. rewrite s64_u64_small by lia. lia.
Qed.

(** C1 (as stated, refuted): a read at [from = capacity] still issues the
    connection probe on the bus, and a read at [from = capacity + 1] on a
    healthy bus returns -1, not 0. *)
Lemma read_past_capacity_counterexample :
  bus_trace (snd (at25sf041_read healthy_bus 524288 524288 1 (mk_state [] []))) <> [] /\
  fst (at25sf041_read healthy_bus 524288 524289 1 (mk_state [] [])) = -1.
Proof. vm_compute. split; [discriminate | reflexivity]. Qed.

(** C1 (amended): [at25sf041_read] has no range guard.  For
    [capacity <= from < 2^63] (and [from + len] not wrapping) it issues the
    connection probe as its first bus transaction, and when the probe and the
    transfer succeed it returns [capacity - from]: 0 at [from = capacity],
    negative beyond, never a positive count. *)
Theorem read_past_capacity
  (respond : list spi_message -> spi_message -> spi_response)
  (mtd_size from len : Z) (s : bus_state) :
  0 <= mtd_size <= from -> from < 2 ^ 63 -> 0 <= len -> from + len < 2 ^ 64 ->
  (exists rest,
      bus_trace (snd (at25sf041_read respond mtd_size from len s)) =
        bus_trace s ++ test_con_message :: rest) /\
  (test_con_classify (respond (bus_trace s) test_con_message) = 0 ->
   sync_ret (respond (bus_trace s ++ [test_con_message])
               (read_message from (clamped_len mtd_size from len))) = 0 ->
   fst (at25sf041_read respond mtd_size from len s) = mtd_size - from /\
   mtd_size - from <= 0).
Proof.
  intros Hm Hf Hl Hs. rewrite read_run. cbv zeta. split.
  - destruct (negb _); [exists []; reflexivity |].
    eexists. cbn [snd bus_trace]. rewrite <- app_assoc. reflexivity.
  - intros Ht Hr. rewrite Ht, Hr. cbn [negb Z.eqb fst].
    rewrite read_len_value by lia. lia.
Qed.

Lemma read_past_capacity_witness :
  (0 <= 524288 <= 524288 /\ 524288 < 2 ^ 63 /\ 0 <= 1 /\ 524288 + 1 < 2 ^ 64) /\
  ((exists rest,
      bus_trace (snd (at25sf041_read healthy_bus 524288 524288 1 (mk_state [] []))) =
        [] ++ test_con_message :: rest) /\
   (test_con_classify (healthy_bus [] test_con_message) = 0 ->
    sync_ret (healthy_bus ([] ++ [test_con_message])
                (read_message 524288 (clamped_len 524288 524288 1))) = 0 ->
    fst (at25sf041_read healthy_bus 524288 524288 1 (mk_state [] [])) = 524288 - 524288 /\
    524288 - 524288 <= 0)).
Proof.
  split; [lia |].
  apply (read_past_capacity healthy_bus 524288 524288 1 (mk_state [] [])); lia.
Defined.

(** C7 (fails in the code): with [len = SIZE_MAX] the 64-bit sum
    [from + len] inside the clamp [min(max_addr, from + len)] wraps to
    [from - 1], so [end - from] is [SIZE_MAX] and a read at [from = 1] on a
    healthy bus returns -1 rather than [capacity - 1]. *)
Lemma read_truncation_counterexample :
  fst (at25sf041_read healthy_bus 524288 1 (2 ^ 64 - 1) (mk_state [] [])) = -1 /\
  -1 <> 524288 - 1.
Proof. vm_compute. split; [reflexivity | discriminate]. Qed.

(** C7 (where the sum does not wrap): for
    [0 <= from < capacity < from + len < 2^64], when the probe and the
    transfer succeed, [at25sf041_read] returns [capacity - from]; the wrap of
    [from + len] is the only way the truncation fails. *)
Theorem read_truncates_at_capacity
  (respond : list spi_message -> spi_message -> spi_response)
  (mtd_size from len : Z) (s : bus_state) :
  0 <= from < mtd_size -> mtd_size < 2 ^ 63 -> 0 <= len ->
  mtd_size < from + len < 2 ^ 64 ->
  test_con_classify (respond (bus_trace s) test_con_message) = 0 ->
  sync_ret (respond (bus_trace s ++ [test_con_message])
              (read_message from (clamped_len mtd_size from len))) = 0 ->
  fst (at25sf041_read respond mtd_size from len s) = mtd_size - from.
Proof.
  intros Hf Hm Hl Hs Ht Hr. rewrite read_run. cbv zeta.
  rewrite Ht, Hr. cbn [negb Z.eqb fst].
  rewrite read_len_value by lia. lia.
Qed.

Lemma read_truncates_at_capacity_witness :
  fst (at25sf041_read healthy_bus 524288 524000 1000 (mk_state [] [])) = 524288 - 524000.
Proof.
  apply (read_truncates_at_capacity healthy_bus 524288 524000 1000 (mk_state [] []));
    first [lia | vm_compute; reflexivity].
Defined.

(** ** Witnesses on concrete buses *)

(** The status byte reads 0xFF: MISO, MOSI or CLK floating. *)
Definition floating_bus (_ : list spi_message) (_ : spi_message) : spi_response :=
  mk_response 0 [[0xFF]; [0x1F; 0x84; 0x01]].

(** A write is in progress; the identity bytes read 0xFF. *)
Definition busy_bus (_ : list spi_message) (_ : spi_message) : spi_response :=
  mk_response 0 [[0x03]; [0xFF; 0xFF; 0xFF]].

(** Chip select floating: the status byte reads 0x00 and so does the
    identity. *)
Definition no_cs_bus (_ : list spi_message) (_ : spi_message) : spi_response :=
  mk_response 0 [[0x00]; [0x00; 0x00; 0x00]].

(** A healthy chip whose page program transfers report the positive value 1. *)
Definition program_fault_bus (tr : list spi_message) (m : spi_message) : spi_response :=
  match m with
  | Tx (op :: _) _ :: _ => if op =? 0x02 then mk_response 1 [] else healthy_bus tr m
  | _ => healthy_bus tr m
  end.

Lemma test_con_status_ff_disconnected_witness :
  sync_ret (floating_bus [] test_con_message) = 0 /\
  rx_byte (floating_bus [] test_con_message) 0 0 0xAB = 0xFF /\
  fst (at25sf041_test_con floating_bus (mk_state [] [])) = - EIO.
Proof.
  split; [reflexivity |]. split; [reflexivity |].
  apply (test_con_status_ff_disconnected floating_bus (mk_state [] [])); reflexivity.
Defined.

Lemma test_con_wip_connected_witness :
  rx_byte (busy_bus [] test_con_message) 0 0 0xAB <> 0xFF /\
  fst (at25sf041_test_con busy_bus (mk_state [] [])) = 0.
Proof.
  split; [vm_compute; discriminate |].
  apply (test_con_wip_connected busy_bus (mk_state [] []));
    first [reflexivity | vm_compute; discriminate].
Defined.

Lemma test_con_idle_checks_id_witness :
  fst (at25sf041_test_con no_cs_bus (mk_state [] [])) = - EIO /\
  fst (at25sf041_test_con healthy_bus (mk_state [] [])) = 0.
Proof.
  split.
  - exact (test_con_idle_checks_id no_cs_bus (mk_state [] []) eq_refl eq_refl).
  - exact (test_con_idle_checks_id healthy_bus (mk_state [] []) eq_refl eq_refl).
Defined.

Lemma reg_access_gated_by_probe_witness :
  at25sf041_read_reg floating_bus 0x9f 3 (mk_state [] []) =
    (- EIO, mk_state [test_con_message] []).
Proof.
  destruct (reg_access_gated_by_probe floating_bus (mk_state [] []) 0x9f 3 [])
    as [_ [_ H]].
  destruct H as [Hr _]; [vm_compute; discriminate |].
  rewrite Hr. reflexivity.
Defined.

Lemma write_aborts_on_bad_chunk_witness :
  (forall tr m, -2 ^ 31 <= sync_ret (program_fault_bus tr m) < 2 ^ 31) /\
  fst (at25sf041_write program_fault_bus 524288 253 10 (repeat 0 10) (mk_state [] [])) =
    Some (- EIO) /\
  exists new,
    page_calls (snd (at25sf041_write program_fault_bus 524288 253 10 (repeat 0 10)
                       (mk_state [] []))) = [] ++ new /\
    (forall i page r, nth_error new i = Some (page, r) -> r <> page_len page ->
     S i = length new /\
     fst (at25sf041_write program_fault_bus 524288 253 10 (repeat 0 10) (mk_state [] [])) =
       Some (if r <? 0 then r else - EIO)).
Proof.
  assert (Hint : forall tr m, -2 ^ 31 <= sync_ret (program_fault_bus tr m) < 2 ^ 31).
  { intros tr m. unfold program_fault_bus.
    destruct m as [| [[| op ?] ?| ? ?] ?]; try (simpl; lia).
    destruct (op =? 0x02); simpl; lia. }
  split; [exact Hint |]. split; [vm_compute; reflexivity |].
  apply (write_aborts_on_bad_chunk program_fault_bus Hint 524288 253 10 (repeat 0 10)
           (mk_state [] [])).
Defined.

(** * Further properties of the driver *)

(** ** Address encoding *)

(** The 24-bit big-endian value carried by the three address bytes of a
    command. *)
Definition address_value (bs : list Z) : Z :=
  fold_left (fun acc b => acc * 256 + b) bs 0.

(** The three address bytes that [at25sf041_read] and [at25sf041_write_page]
    put after the opcode are bytes and encode [a mod 2^24] big-endian: the
    address is the low 24 bits of the offset. *)
Theorem address_bytes_roundtrip (a : Z) :
  Forall (fun b => 0 <= b < 256) (address_bytes a) /\
  address_value (address_bytes a) = a mod 2 ^ 24.
Proof.
  unfold address_bytes, address_value. rewrite !land_255_mod, !Z.shiftr_div_pow2 by lia.
  split.
  - repeat constructor; apply Z.mod_pos_bound; lia.
  - cbn [fold_left].
    change (2 ^ 16) with 65536. change (2 ^ 8) with 256. change (2 ^ 24) with 16777216.
    Z.div_mod_to_equations. lia.
Qed.

(** ** The connection probe *)

(** The status byte is pre-seeded with 0xAB, whose write-in-progress bit is
    set: if the transfer succeeds but no status byte is delivered, the probe
    reports connected without looking at the identity bytes. *)
Theorem test_con_undelivered_status_connected
  (respond : list spi_message -> spi_message -> spi_response) (s : bus_state) :
  sync_ret (respond (bus_trace s) test_con_message) = 0 ->
  nth 0 (rx_data (respond (bus_trace s) test_con_message)) [] = [] ->
  fst (at25sf041_test_con respond s) = 0.
Proof.
  intros Hret Hrx. rewrite test_con_run. cbn [fst].
  unfold test_con_classify, rx_byte. rewrite Hret, Hrx. reflexivity.
Qed.

Definition silent_bus (_ : list spi_message) (_ : spi_message) : spi_response :=
  mk_response 0 [].

Lemma test_con_undelivered_status_connected_witness :
  fst (at25sf041_test_con silent_bus (mk_state [] [])) = 0.
Proof.
  apply (test_con_undelivered_status_connected silent_bus (mk_state [] []));
    reflexivity.
Defined.

(** ** Reads within the device *)

Lemma s64_nonneg_inv (y z : Z) :
  0 <= y < 2 ^ 64 -> 0 <= z -> s64 y = z -> y = z.
Proof.
  unfold s64. intros Hy Hz. rewrite Z.mod_small by lia.
  destruct (Z.ltb_spec y (2 ^ 63)); lia.
Qed.

(** Inside the device the clamp is the identity: once the probe succeeds,
    [at25sf041_read] issues one more transaction, whose receive transfer has
    the [unsigned] length [len mod 2^32], and reports [len] on success. *)
Lemma read_in_range_run
  (respond : list spi_message -> spi_message -> spi_response)
  (mtd_size from len : Z) (s : bus_state) :
  0 <= from -> 0 <= len -> from + len <= mtd_size < 2 ^ 63 ->
  test_con_classify (respond (bus_trace s) test_con_message) = 0 ->
  let tr1 := bus_trace s ++ [test_con_message] in
  let m := [Tx ([0x0b] ++ address_bytes from ++ [0]) false; Rx (u32 len) false] in
  at25sf041_read respond mtd_size from len s =
    (if sync_ret (respond tr1 m) =? 0 then len else sync_ret (respond tr1 m),
     mk_state (tr1 ++ [m]) (page_calls s)).
Proof.
  intros Hf Hl Hm Ht tr1 m.
  assert (Hc : clamped_len mtd_size from len = len).
  { apply s64_nonneg_inv; [apply clamped_len_range | lia |].
    rewrite read_len_value by lia. lia. }
  rewrite read_run. cbv zeta. rewrite Ht. cbn [negb Z.eqb].
  unfold read_message. rewrite Hc. fold tr1. fold m.
  destruct (sync_ret (respond tr1 m) =? 0); cbn [negb]; [| reflexivity].
  f_equal. unfold s64. rewrite Z.mod_small by lia.
  replace (len <? 2 ^ 63) with true by lia. reflexivity.
Qed.

(** For a request inside the device ([0 <= from], [from + len <= capacity
    < 2^63]) of fewer than [2^32] bytes, once the probe succeeds
    [at25sf041_read] issues exactly one more transaction: opcode 0x0b, the
    address, a dummy byte, and a receive transfer of exactly [len] bytes; it
    returns [len] on success and the [spi_sync] error otherwise. *)
Theorem read_in_range
  (respond : list spi_message -> spi_message -> spi_response)
  (mtd_size from len : Z) (s : bus_state) :
  0 <= from -> 0 <= len < 2 ^ 32 -> from + len <= mtd_size < 2 ^ 63 ->
  test_con_classify (respond (bus_trace s) test_con_message) = 0 ->
  let tr1 := bus_trace s ++ [test_con_message] in
  let m := [Tx ([0x0b] ++ address_bytes from ++ [0]) false; Rx len false] in
  at25sf041_read respond mtd_size from len s =
    (if sync_ret (respond tr1 m) =? 0 then len else sync_ret (respond tr1 m),
     mk_state (tr1 ++ [m]) (page_calls s)).
Proof.
  intros Hf Hl Hm Ht tr1 m.
  rewrite (read_in_range_run respond mtd_size from len s) by (auto; lia).
  cbv zeta. unfold u32. rewrite Z.mod_small by lia. reflexivity.
Qed.

Lemma read_in_range_witness :
  at25sf041_read healthy_bus 524288 256 16 (mk_state [] []) =
    (16, mk_state [test_con_message;
                   [Tx ([0x0b] ++ address_bytes 256 ++ [0]) false; Rx 16 false]] []).
Proof.
  rewrite (read_in_range healthy_bus 524288 256 16 (mk_state [] [])) by
    first [lia | reflexivity].
  reflexivity.
Defined.

(** [spi_transfer.len] is an [unsigned]: for a request inside the device of
    [2^32] bytes or more, the receive transfer of [at25sf041_read] is
    [len mod 2^32] bytes, fewer than [len], yet on success the read reports
    all [len] bytes as read. *)
Theorem read_reports_more_than_received
  (respond : list spi_message -> spi_message -> spi_response)
  (mtd_size from len : Z) (s : bus_state) :
  0 <= from -> 2 ^ 32 <= len -> from + len <= mtd_size < 2 ^ 63 ->
  test_con_classify (respond (bus_trace s) test_con_message) = 0 ->
  let tr1 := bus_trace s ++ [test_con_message] in
  let m := [Tx ([0x0b] ++ address_bytes from ++ [0]) false; Rx (len mod 2 ^ 32) false] in
  sync_ret (respond tr1 m) = 0 ->
  len mod 2 ^ 32 < len /\
  at25sf041_read respond mtd_size from len s = (len, mk_state (tr1 ++ [m]) (page_calls s)).
Proof.
  intros Hf Hl Hm Ht tr1 m Hr. split.
  - pose proof (Z.mod_pos_bound len (2 ^ 32)). lia.
  - rewrite (read_in_range_run respond mtd_size from len s) by (auto; lia).
    cbv zeta. unfold m, tr1 in *. change (u32 len) with (len mod 2 ^ 32).
    rewrite Hr. reflexivity.
Qed.

Lemma read_reports_more_than_received_witness :
  4294967296 mod 2 ^ 32 < 4294967296 /\
  at25sf041_read healthy_bus (2 ^ 33) 0 (2 ^ 32) (mk_state [] []) =
    (2 ^ 32, mk_state [test_con_message;
                       [Tx ([0x0b] ++ address_bytes 0 ++ [0]) false; Rx 0 false]] []).
Proof.
  apply (read_reports_more_than_received healthy_bus (2 ^ 33) 0 (2 ^ 32) (mk_state [] []));
    first [lia | reflexivity].
Defined.

(** ** Layout of the chunks of a write *)

(** The buffer bytes a logged PageWriter call covers: [page_len] bytes from
    its [buffer_start].  A chunk of [at25sf041_write] is at most 256 bytes,
    so these are the bytes the second transfer of its [page_message] sends. *)
Definition chunk_data (c : at25sf041_page * Z) : list Z :=
  firstn (Z.to_nat (page_len (fst c))) (buffer_start (fst c)).

(** The chunks start at [a] and each starts where the previous one ends. *)
Fixpoint chunks_contiguous (a : Z) (cs : list (at25sf041_page * Z)) : Prop :=
  match cs with
  | [] => True
  | c :: cs' => spi_addr_start (fst c) = a /\ chunks_contiguous (a + page_len (fst c)) cs'
  end.

Lemma next_page_len (to : Z) (buf : list Z) (dl : Z) :
  page_len (next_page to buf dl) = Z.min (256 - to mod 256) dl.
Proof.
  unfold next_page, AT25SF041_PAGE_SIZE, u64; cbn [page_len].
  rewrite land_255_mod. pose proof (Z.mod_pos_bound to 256 ltac:(lia)).
  rewrite (Z.mod_small (256 - to mod 256)) by lia. reflexivity.
Qed.

Lemma firstn_app_skipn {A : Type} (n m : nat) (l : list A) :
  firstn n l ++ firstn m (skipn n l) = firstn (n + m) l.
Proof.
  revert l. induction n as [| n IH]; intros [| x l]; cbn; rewrite ?firstn_nil; auto.
  f_equal. apply IH.
Qed.

Lemma write_loop_layout (respond : list spi_message -> spi_message -> spi_response)
  (f : nat) (to : Z) (buf : list Z) (dl : Z) (s : bus_state) :
  0 <= to -> 0 <= dl -> to + dl < 2 ^ 63 -> (Z.to_nat dl <= f)%nat ->
  exists new,
    page_calls (snd (write_loop respond f to buf dl s)) = page_calls s ++ new /\
    (Forall (fun c => snd c = page_len (fst c)) new ->
     chunks_contiguous to new /\
     concat (map chunk_data new) = firstn (Z.to_nat dl) buf /\
     Forall (fun c => (spi_addr_start (fst c) + page_len (fst c)) mod 256 = 0)
            (removelast new)).
Proof.
  revert to buf dl s. induction f as [| f IH]; intros to buf dl s Ht Hd Hs Hf.
  - rewrite write_loop_exit by lia. exists []. rewrite app_nil_r. split; [reflexivity |].
    intros _. cbn. replace (Z.to_nat dl) with 0%nat by lia. auto.
  - destruct (Z.ltb_spec 0 dl) as [Hdl | Hdl].
    2:{ rewrite write_loop_exit by exact Hdl. exists []. rewrite app_nil_r.
        split; [reflexivity |]. intros _. cbn. replace (Z.to_nat dl) with 0%nat by lia.
        auto. }
    rewrite write_loop_step by exact Hdl. cbv zeta.
    pose proof (call_write_page_logs respond (next_page to buf dl) s) as Hlog.
    pose proof (next_page_len to buf dl) as HL.
    pose proof (Z.mod_pos_bound to 256 ltac:(lia)) as Hmod.
    set (pg := next_page to buf dl) in *.
    set (L := page_len pg) in *.
    destruct (call_write_page respond pg s) as [r s1]. cbn [fst snd] in Hlog.
    assert (HuL : u64 L = L) by (unfold u64; apply Z.mod_small; lia).
    destruct (Z.eqb_spec r L) as [-> | Hr].
    2:{ (* the call failed: the hypothesis on the log cannot hold *)
        destruct (r <? 0); [| destruct (negb _)].
        - exists [(pg, r)]. split; [exact Hlog |]. intros Hall.
          inversion Hall as [| ? ? Hc]. cbn [fst snd] in Hc. contradiction.
        - exists [(pg, r)]. split; [exact Hlog |]. intros Hall.
          inversion Hall as [| ? ? Hc]. cbn [fst snd] in Hc. contradiction.
        - match goal with
          | |- context [write_loop respond f ?t ?b ?d s1] =>
              destruct (write_loop_pages respond f t b d s1) as [new' [Hn _]];
              destruct (write_loop respond f t b d s1) as [o s3]
          end.
          cbn [snd] in Hn |- *. exists ((pg, r) :: new'). split.
          + rewrite Hn, Hlog, <- app_assoc. reflexivity.
          + intros Hall. inversion Hall as [| ? ? Hc]. cbn [fst snd] in Hc. contradiction. }
    replace (L <? 0) with false by lia. rewrite HuL, Z.eqb_refl. cbn [negb].
    assert (Hto : s64 (u64 to + L) = to + L).
    { unfold s64, u64. rewrite (Z.mod_small to) by lia. rewrite Z.mod_small by lia.
      replace (to + L <? 2 ^ 63) with true by lia. reflexivity. }
    assert (Hdl' : u64 (dl - L) = dl - L) by (unfold u64; apply Z.mod_small; lia).
    rewrite Hto, Hdl'.
    destruct (IH (to + L) (skipn (Z.to_nat L) buf) (dl - L) s1
                ltac:(lia) ltac:(lia) ltac:(lia) ltac:(lia)) as [new [Hn Hok]].
    exists ((pg, L) :: new). split; [rewrite Hn, Hlog, <- app_assoc; reflexivity |].
    intros Hall. inversion Hall as [| ? ? _ Hrest]. subst.
    destruct (Hok Hrest) as [Hc [Hd' Hr']]. split; [| split].
    + split; [reflexivity | exact Hc].
    + cbn [map concat]. rewrite Hd'. unfold chunk_data. cbn [fst].
      change (page_len pg) with L. change (buffer_start pg) with buf.
      rewrite firstn_app_skipn. f_equal. lia.
    + destruct new as [| c new'].
      * constructor.
      * change (removelast ((pg, L) :: c :: new')) with ((pg, L) :: removelast (c :: new')).
        constructor; [| exact Hr'].
        cbn [fst]. change (spi_addr_start pg) with to. fold L.
        destruct (Z.eqb_spec (dl - L) 0) as [E | E].
        -- exfalso. rewrite E in Hn.
           rewrite write_loop_exit in Hn by lia. cbn [snd] in Hn.
           rewrite <- (app_nil_r (page_calls s1)) in Hn at 1.
           apply app_inv_head in Hn. discriminate.
        -- assert (HL' : L = 256 - to mod 256) by lia.
           rewrite HL'. replace (to + (256 - to mod 256)) with ((to / 256 + 1) * 256)
             by (pose proof (Z.div_mod to 256 ltac:(lia)); lia).
           apply Z.mod_mul. lia.
Qed.

Lemma clamped_len_in_range (mtd_size from len : Z) :
  0 <= from <= mtd_size -> mtd_size < 2 ^ 63 -> 0 <= len -> from + len < 2 ^ 64 ->
  clamped_len mtd_size from len = Z.min mtd_size (from + len) - from.
Proof.
  intros. apply s64_nonneg_inv; [apply clamped_len_range | lia |].
  apply read_len_value; lia.
Qed.

(** For a write inside the device ([0 <= to <= capacity < 2^63],
    [to + len < 2^63]) during which every PageWriter call returns its chunk
    length, the chunks start at [to], each starts where the previous one
    ends, and the bytes they carry, in order, are exactly the first
    [min(capacity, to + len) - to] bytes of the caller's buffer. *)
Theorem write_chunks_cover_buffer
  (respond : list spi_message -> spi_message -> spi_response)
  (mtd_size to len : Z) (buf : list Z) (s : bus_state) :
  0 <= to <= mtd_size -> mtd_size < 2 ^ 63 -> 0 <= len -> to + len < 2 ^ 63 ->
  exists new,
    page_calls (snd (at25sf041_write respond mtd_size to len buf s)) = page_calls s ++ new /\
    (Forall (fun c => snd c = page_len (fst c)) new ->
     chunks_contiguous to new /\
     concat (map chunk_data new) = firstn (Z.to_nat (Z.min mtd_size (to + len) - to)) buf).
Proof.
  intros Ht Hm Hl Hs. rewrite write_run. cbv zeta.
  rewrite clamped_len_in_range by lia.
  destruct (write_loop_layout respond (Z.to_nat (Z.min mtd_size (to + len) - to)) to buf
              (Z.min mtd_size (to + len) - to) s ltac:(lia) ltac:(lia) ltac:(lia) (le_n _))
    as [new [Hn Hok]].
  destruct (write_loop respond _ to buf _ s) as [o s1].
  exists new. split; [exact Hn |]. intros Hall. destruct (Hok Hall) as [H1 [H2 _]]. auto.
Qed.

Lemma write_chunks_cover_buffer_witness :
  exists new,
    page_calls (snd (at25sf041_write healthy_bus 524288 250 300 (repeat 7 300)
                       (mk_state [] []))) = [] ++ new /\
    (Forall (fun c => snd c = page_len (fst c)) new ->
     chunks_contiguous 250 new /\
     concat (map chunk_data new) = firstn (Z.to_nat (Z.min 524288 (250 + 300) - 250))
                                     (repeat 7 300)).
Proof.
  apply (write_chunks_cover_buffer healthy_bus 524288 250 300 (repeat 7 300) (mk_state [] []));
    lia.
Defined.

(** Under the same conditions, every chunk but the last ends exactly on a
    page boundary: after a first, possibly partial, page the write proceeds
    in whole pages. *)
Theorem write_chunks_end_on_page_boundary
  (respond : list spi_message -> spi_message -> spi_response)
  (mtd_size to len : Z) (buf : list Z) (s : bus_state) :
  0 <= to <= mtd_size -> mtd_size < 2 ^ 63 -> 0 <= len -> to + len < 2 ^ 63 ->
  exists new,
    page_calls (snd (at25sf041_write respond mtd_size to len buf s)) = page_calls s ++ new /\
    (Forall (fun c => snd c = page_len (fst c)) new ->
     Forall (fun c => (spi_addr_start (fst c) + page_len (fst c)) mod 256 = 0)
            (removelast new)).
Proof.
  intros Ht Hm Hl Hs. rewrite write_run. cbv zeta.
  rewrite clamped_len_in_range by lia.
  destruct (write_loop_layout respond (Z.to_nat (Z.min mtd_size (to + len) - to)) to buf
              (Z.min mtd_size (to + len) - to) s ltac:(lia) ltac:(lia) ltac:(lia) (le_n _))
    as [new [Hn Hok]].
  destruct (write_loop respond _ to buf _ s) as [o s1].
  exists new. split; [exact Hn |]. intros Hall. destruct (Hok Hall) as [_ [_ H3]]. exact H3.
Qed.

Lemma write_chunks_end_on_page_boundary_witness :
  exists new,
    page_calls (snd (at25sf041_write healthy_bus 524288 250 600 (repeat 0 600)
                       (mk_state [] []))) = [] ++ new /\
    (Forall (fun c => snd c = page_len (fst c)) new ->
     Forall (fun c => (spi_addr_start (fst c) + page_len (fst c)) mod 256 = 0)
            (removelast new)).
Proof.
  apply (write_chunks_end_on_page_boundary healthy_bus 524288 250 600 (repeat 0 600)
           (mk_state [] [])); lia.
Defined.

(** A write with nothing to do inside the device ([len = 0], or [to] equal
    to the capacity) returns 0 without any bus transaction: unlike
    [at25sf041_read], it does not even probe the link. *)
Theorem write_empty_no_transaction
  (respond : list spi_message -> spi_message -> spi_response)
  (mtd_size to len : Z) (buf : list Z) (s : bus_state) :
  0 <= to <= mtd_size -> mtd_size < 2 ^ 63 -> 0 <= len -> to + len < 2 ^ 64 ->
  (len = 0 \/ to = mtd_size) ->
  at25sf041_write respond mtd_size to len buf s = (Some 0, s).
Proof.
  intros Ht Hm Hl Hs Hz. rewrite write_run. cbv zeta.
  rewrite clamped_len_in_range by lia.
  replace (Z.min mtd_size (to + len) - to) with 0 by lia.
  rewrite write_loop_exit by lia. reflexivity.
Qed.

Lemma write_empty_no_transaction_witness :
  at25sf041_write floating_bus 524288 4096 0 [] (mk_state [] []) =
    (Some 0, mk_state [] []).
Proof.
  apply write_empty_no_transaction; lia.
Defined.

(** [at25sf041_write] has no range guard: for [capacity < to] (even with
    [len = 0]) the clamped length [min(capacity, to + len) - to] is negative
    and wraps to a huge [size_t], so the loop runs and its first PageWriter
    call programs a chunk at address [to], past the end of the device. *)
Theorem write_past_capacity_programs
  (respond : list spi_message -> spi_message -> spi_response)
  (mtd_size to len : Z) (buf : list Z) (s : bus_state) :
  0 <= mtd_size < to -> to < 2 ^ 63 -> 0 <= len -> to + len < 2 ^ 64 ->
  exists c rest,
    page_calls (snd (at25sf041_write respond mtd_size to len buf s)) =
      page_calls s ++ c :: rest /\
    spi_addr_start (fst c) = to /\ 1 <= page_len (fst c).
Proof.
  intros Hm Ht Hl Hs.
  assert (Hc : clamped_len mtd_size to len = mtd_size - to + 2 ^ 64).
  { unfold clamped_len, u64, s64.
    rewrite (Z.mod_small to), (Z.mod_small (to + len)), (Z.mod_small mtd_size) by lia.
    replace (mtd_size <? to + len) with true by lia.
    rewrite (Z.mod_small mtd_size) by lia.
    replace (mtd_size <? 2 ^ 63) with true by lia.
    symmetry. apply Z.mod_unique with (-1); [left |]; lia. }
  rewrite write_run. cbv zeta. rewrite Hc.
  replace (Z.to_nat (mtd_size - to + 2 ^ 64))
    with (S (Z.to_nat (mtd_size - to + 2 ^ 64 - 1))) by lia.
  rewrite write_loop_step by lia. cbv zeta.
  set (dl := mtd_size - to + 2 ^ 64).
  pose proof (call_write_page_logs respond (next_page to buf dl) s) as Hlog.
  pose proof (next_page_bounds to buf dl ltac:(lia)) as [Hb _].
  set (pg := next_page to buf dl) in *.
  destruct (call_write_page respond pg s) as [r s1]. cbn [fst snd] in Hlog.
  exists (pg, r).
  destruct (r <? 0); [| destruct (negb _)].
  - exists []. cbn [snd fst]. split; [exact Hlog | split; [reflexivity | lia]].
  - exists []. cbn [snd fst]. split; [exact Hlog | split; [reflexivity | lia]].
  - match goal with
    | |- context [write_loop respond ?f ?t ?b ?d s1] =>
        destruct (write_loop_pages respond f t b d s1) as [new' [Hn _]];
        destruct (write_loop respond f t b d s1) as [o s3]
    end.
    cbn [snd fst] in Hn |- *. exists new'. split; [| split; [reflexivity | lia]].
    rewrite Hn, Hlog, <- app_assoc. reflexivity.
Qed.

Lemma write_past_capacity_programs_witness :
  exists c rest,
    page_calls (snd (at25sf041_write floating_bus 524288 524289 0 [] (mk_state [] []))) =
      [] ++ c :: rest /\
    spi_addr_start (fst c) = 524289 /\ 1 <= page_len (fst c).
Proof.
  apply write_past_capacity_programs; lia.
Defined.

(** ** Bus traffic of a write *)

(** The messages one PageWriter call [c] puts on the bus when the trace so
    far is [tr]: the connection probe, then the chunk's page-program message
    if the probe succeeds; if it fails, nothing more, and the call returns the
    probe's error. *)
Definition page_call_traffic
  (respond : list spi_message -> spi_message -> spi_response)
  (tr : list spi_message) (c : at25sf041_page * Z) (p : list spi_message) : Prop :=
  let t := test_con_classify (respond tr test_con_message) in
  if t =? 0 then p = [test_con_message; page_message (fst c)]
  else p = [test_con_message] /\ snd c = t.

(** The traffic of a sequence of PageWriter calls, each part issued after
    the trace [tr] and all the parts before it. *)
Fixpoint write_traffic
  (respond : list spi_message -> spi_message -> spi_response)
  (tr : list spi_message) (cs : list (at25sf041_page * Z))
  (ps : list (list spi_message)) : Prop :=
  match cs, ps with
  | [], [] => True
  | c :: cs', p :: ps' =>
      page_call_traffic respond tr c p /\ write_traffic respond (tr ++ p) cs' ps'
  | _, _ => False
  end.

Lemma call_write_page_trace (respond : list spi_message -> spi_message -> spi_response)
  (page : at25sf041_page) (s : bus_state) :
  exists p,
    bus_trace (snd (call_write_page respond page s)) = bus_trace s ++ p /\
    page_call_traffic respond (bus_trace s) (page, fst (call_write_page respond page s)) p.
Proof.
  unfold call_write_page, at25sf041_write_page, page_call_traffic. cbv [bind].
  rewrite test_con_run. cbv iota beta zeta.
  destruct (Z.eqb_spec (test_con_classify (respond (bus_trace s) test_con_message)) 0)
    as [E | E]; cbn [negb].
  - cbv [spi_sync]. cbn [bus_trace page_calls].
    exists [test_con_message; page_message page]. rewrite <- app_assoc.
    destruct (negb _); auto.
  - exists [test_con_message]. auto.
Qed.

Lemma write_loop_traffic (respond : list spi_message -> spi_message -> spi_response)
  (f : nat) (to : Z) (buf : list Z) (dl : Z) (s : bus_state) :
  exists new parts,
    page_calls (snd (write_loop respond f to buf dl s)) = page_calls s ++ new /\
    bus_trace (snd (write_loop respond f to buf dl s)) = bus_trace s ++ concat parts /\
    write_traffic respond (bus_trace s) new parts.
Proof.
  revert to buf dl s. induction f as [| f IH]; intros to buf dl s.
  - cbn [write_loop]. exists [], []. rewrite !app_nil_r.
    destruct (0 <? dl); cbn; auto.
  - destruct (Z.ltb_spec 0 dl) as [Hdl | Hdl].
    2:{ rewrite write_loop_exit by exact Hdl. exists [], []. rewrite !app_nil_r.
        cbn; auto. }
    rewrite write_loop_step by exact Hdl. cbv zeta.
    pose proof (call_write_page_logs respond (next_page to buf dl) s) as Hlog.
    destruct (call_write_page_trace respond (next_page to buf dl) s) as [p [Htr Hp]].
    destruct (call_write_page respond (next_page to buf dl) s) as [r s1].
    cbn [fst snd] in Hlog, Htr, Hp.
    destruct (r <? 0); [| destruct (negb _)].
    + exists [(next_page to buf dl, r)], [p]. cbn. rewrite app_nil_r. auto.
    + exists [(next_page to buf dl, r)], [p]. cbn. rewrite app_nil_r. auto.
    + match goal with
      | |- context [write_loop respond f ?t ?b ?d s1] =>
          destruct (IH t b d s1) as [new [parts [Hn [Ht Hf]]]]
      end.
      exists ((next_page to buf dl, r) :: new), (p :: parts).
      rewrite Hn, Ht, Hlog, Htr, <- !app_assoc. cbn [write_traffic concat].
      rewrite <- Htr. auto.
Qed.

(** [at25sf041_write] puts nothing on the bus but, for each PageWriter call
    it makes and in order, a connection probe followed by that chunk's
    page-program message exactly when the probe succeeds; a call whose probe
    fails sends no page-program message and returns the probe's error.  The
    link is re-probed before every page. *)
Theorem write_bus_traffic
  (respond : list spi_message -> spi_message -> spi_response)
  (mtd_size to len : Z) (buf : list Z) (s : bus_state) :
  exists new parts,
    page_calls (snd (at25sf041_write respond mtd_size to len buf s)) = page_calls s ++ new /\
    bus_trace (snd (at25sf041_write respond mtd_size to len buf s)) =
      bus_trace s ++ concat parts /\
    write_traffic respond (bus_trace s) new parts.
Proof.
  rewrite write_run. cbv zeta.
  destruct (write_loop_traffic respond (Z.to_nat (clamped_len mtd_size to len)) to buf
              (clamped_len mtd_size to len) s) as [new [parts H]].
  destruct (write_loop respond _ to buf _ s) as [o s1].
  exists new, parts. exact H.
Qed.

(** ** Platform probe *)

Definition EINVAL : Z := 22.
Definition ENOMEM : Z := 12.
Definition EPERM : Z := 1.

(** What the kernel services called by [at25sf041_probe] return, on one
    run: the platform data (SPI bus number and chip select), whether
    [devm_kzalloc] succeeds, the master found by [spi_busnum_to_master], the
    device found by name by [bus_find_device_by_name] in
    [at25sf041_del_device], the device made by [spi_new_device], and the
    results of [spi_nor_scan] and [mtd_device_register].  Masters and devices
    are named by integers. *)
Record probe_env : Type := mk_probe_env {
  platdata : option (Z * Z);
  kzalloc_ok : bool;
  busnum_to_master : Z -> option Z;
  find_device_by_name : Z -> Z -> option Z;
  new_device : option Z;
  nor_scan_ret : Z;
  mtd_register_ret : Z
}.

(** Side effects of [at25sf041_probe] on the kernel, in order. *)
Inductive probe_event : Type :=
| Alloc
| GetMaster (master : Z)
| DeviceDel (dev : Z)
| NewDevice (dev : Z)
| PutMaster (master : Z)
| InstallOps
| NorScan
| MtdRegister.

Definition at25sf041_del_device (env : probe_env) (master cs : Z) : list probe_event :=
  match find_device_by_name env master cs with
  | Some dev => [DeviceDel dev]
  | None => []
  end.

Definition at25sf041_probe (env : probe_env) : Z * list probe_event :=
  match platdata env with
  | None => (- EINVAL, [])
  | Some (bus_num, chip_select) =>
    if negb (kzalloc_ok env) then (- ENOMEM, [])
    else
      match busnum_to_master env bus_num with
      | None => (- EINVAL, [Alloc])
      | Some master =>
        let ev := [Alloc; GetMaster master] ++ at25sf041_del_device env master chip_select ++
                  (match new_device env with Some d => [NewDevice d] | None => [] end) ++
                  [PutMaster master] in
        match new_device env with
        | None => (- EPERM, ev)
        | Some _ =>
          let ev := ev ++ [InstallOps; NorScan] in
          if negb (nor_scan_ret env =? 0) then (nor_scan_ret env, ev)
          else
            let ev := ev ++ [MtdRegister] in
            if negb (mtd_register_ret env =? 0) then (mtd_register_ret env, ev)
            else (0, ev)
        end
      end
  end.

Definition count_get_master (ev : list probe_event) : nat :=
  length (filter (fun e => match e with GetMaster _ => true | _ => false end) ev).

Definition count_put_master (ev : list probe_event) : nat :=
  length (filter (fun e => match e with PutMaster _ => true | _ => false end) ev).

(** On every path of [at25sf041_probe] the master reference taken by
    [spi_busnum_to_master] is released exactly once, after any stale device
    on the chip select has been deleted and the new device created; a
    successful probe has installed the driver's operations before the flash
    scan and registered the MTD device. *)
Theorem probe_master_reference_balanced (env : probe_env) :
  let (r, ev) := at25sf041_probe env in
  count_get_master ev = count_put_master ev /\
  (forall master, In (GetMaster master) ev ->
   exists pre post, ev = pre ++ PutMaster master :: post /\
     ~ In InstallOps pre /\
     (forall d, In (DeviceDel d) post -> False) /\
     (forall d, In (NewDevice d) post -> False)) /\
  (r = 0 -> exists pre, ev = pre ++ [InstallOps; NorScan; MtdRegister]).
Proof.
  unfold at25sf041_probe.
  destruct (platdata env) as [[bus cs] |]; [| split; [reflexivity | split; [contradiction |]];
    intros H; discriminate].
  destruct (kzalloc_ok env); cbn [negb];
    [| split; [reflexivity | split; [contradiction |]]; intros H; discriminate].
  destruct (busnum_to_master env bus) as [m |];
    [| split; [reflexivity | split; [intros ? [H | []]; discriminate |]];
       intros H; discriminate].
  set (dd := at25sf041_del_device env m cs).
  assert (Hdd : forall e, In e dd -> exists d, e = DeviceDel d).
  { unfold dd, at25sf041_del_device.
    destruct (find_device_by_name env m cs); intros e He; [| contradiction].
    destruct He as [<- | []]. eauto. }
  assert (Hcdd : count_get_master dd = 0%nat /\ count_put_master dd = 0%nat).
  { unfold dd, at25sf041_del_device.
    destruct (find_device_by_name env m cs); split; reflexivity. }
  set (nd := match new_device env with Some d => [NewDevice d] | None => [] end).
  assert (Hnd : forall e, In e nd -> exists d, e = NewDevice d).
  { unfold nd. destruct (new_device env); intros e He; [| contradiction].
    destruct He as [<- | []]. eauto. }
  assert (Hcnd : count_get_master nd = 0%nat /\ count_put_master nd = 0%nat).
  { unfold nd. destruct (new_device env); split; reflexivity. }
  set (base := [Alloc; GetMaster m] ++ dd ++ nd ++ [PutMaster m]).
  assert (Hcount : forall tail,
             count_get_master tail = 0%nat -> count_put_master tail = 0%nat ->
             count_get_master (base ++ tail) = count_put_master (base ++ tail)).
  { intros tail Hg Hp. unfold base, count_get_master, count_put_master in *.
    rewrite !filter_app, !length_app. cbn. lia. }
  assert (Hput : forall tail master, In (GetMaster master) (base ++ tail) ->
            (forall e, In e tail -> e <> GetMaster master /\
                         (forall d, e <> DeviceDel d) /\ (forall d, e <> NewDevice d)) ->
            exists pre post, base ++ tail = pre ++ PutMaster master :: post /\
              ~ In InstallOps pre /\
              (forall d, In (DeviceDel d) post -> False) /\
              (forall d, In (NewDevice d) post -> False)).
  { intros tail master Hin Htail.
    assert (master = m).
    { unfold base in Hin. rewrite <- !app_assoc in Hin. cbn in Hin.
      destruct Hin as [H | [H | H]]; [discriminate | congruence |].
      apply in_app_or in H as [H | H]; [destruct (Hdd _ H); discriminate |].
      apply in_app_or in H as [H | H]; [destruct (Hnd _ H); discriminate |].
      destruct H as [H | H]; [discriminate |].
      destruct (Htail _ H) as [Hne _]. contradiction. }
    subst master.
    exists ([Alloc; GetMaster m] ++ dd ++ nd), tail. split.
    - unfold base. rewrite <- !app_assoc. reflexivity.
    - split; [| split].
      + intros H. rewrite !in_app_iff in H. cbn in H.
        destruct H as [[H | [H | []]] | [H | H]]; try discriminate;
          [destruct (Hdd _ H) | destruct (Hnd _ H)]; discriminate.
      + intros d H. destruct (Htail _ H) as [_ [H2 _]]. apply (H2 d). reflexivity.
      + intros d H. destruct (Htail _ H) as [_ [_ H3]]. apply (H3 d). reflexivity. }
  assert (Hbase : base = base ++ []) by (rewrite app_nil_r; reflexivity).
  destruct (new_device env) as [d |] eqn:End.
  - destruct (nor_scan_ret env =? 0) eqn:Es; cbn [negb];
      [destruct (mtd_register_ret env =? 0); cbn [negb] |].
    + replace ((base ++ [InstallOps; NorScan]) ++ [MtdRegister])
        with (base ++ [InstallOps; NorScan; MtdRegister])
        by (rewrite <- app_assoc; reflexivity).
      split; [apply Hcount; reflexivity |]. split.
      * intros master Hin. apply Hput; [exact Hin |].
        intros e [<- | [<- | [<- | []]]]; repeat split; discriminate.
      * intros _. exists base. reflexivity.
    + replace ((base ++ [InstallOps; NorScan]) ++ [MtdRegister])
        with (base ++ [InstallOps; NorScan; MtdRegister])
        by (rewrite <- app_assoc; reflexivity).
      split; [apply Hcount; reflexivity |]. split.
      * intros master Hin. apply Hput; [exact Hin |].
        intros e [<- | [<- | [<- | []]]]; repeat split; discriminate.
      * intros _. exists base. reflexivity.
    + split; [apply Hcount; reflexivity |]. split.
      * intros master Hin. apply Hput; [exact Hin |].
        intros e [<- | [<- | []]]; repeat split; discriminate.
      * intros Hr. rewrite Hr in Es. discriminate.
  - rewrite Hbase.
    split; [apply Hcount; reflexivity |]. split.
    + intros master Hin. apply Hput; [exact Hin | intros e []].
    + intros H. discriminate.
Qed.
